(** * AutoLoader: reader configuration for Databricks' autoloader

    A shallow embedding of [koheesio/spark/readers/databricks/autoloader.py]:
    the [AutoLoaderFormat] enumeration and the [AutoLoader] step with its two
    field validators ([validate_format], [validate_schema]), the options
    merger ([get_options]), the request builder ([reader]) and [execute].

    Python values are modelled as follows.
    - [str] is [string], read as ASCII text: [upper] below is [str.upper] on
      strings of ASCII characters ([is_ascii]).  On other code points
      [str.upper] follows the Unicode case mapping, which is not modelled;
      a statement that ranges over arbitrary strings and depends on the
      outcome of [upper] is stated for ASCII strings.
    - A raised exception is the [Raise] case of [Res]; effects (the dict
      objects of the heap, the filesystem accesses) are threaded through
      the state monad [Py].
    - [Dict[str, str]] is [gmap string string]; a dict object lives in the
      heap and is named by a reference, so that aliasing is visible. *)

From Stdlib Require Import String Ascii NArith List Bool Lia.
From stdpp Require Import base option gmap strings list fin_maps.

Open Scope string_scope.

(** ** Python exceptions and results *)

Inductive PyExc : Type :=
| AttributeError (msg : string)
| FileNotFoundError (msg : string)
| TypeError (msg : string)
| OSError (msg : string)
| JSONDecodeError (msg : string)
| SchemaError (msg : string).

Inductive Res (A : Type) : Type :=
| Return (a : A)
| Raise (e : PyExc).

Arguments Return {A} a.
Arguments Raise {A} e.

Definition res_bind {A B : Type} (r : Res A) (k : A -> Res B) : Res B :=
  match r with
  | Return a => k a
  | Raise e => Raise e
  end.

Declare Scope res_scope.
Delimit Scope res_scope with res.
Notation "'let?' x ':=' r 'in' k" := (res_bind r (fun x => k))
  (at level 10, x name, r at level 100, k at level 200) : res_scope.

(** ** Strings *)

Module PyStr.

Definition is_lower_char (c : ascii) : bool :=
  let n := N_of_ascii c in ((97 <=? n) && (n <=? 122))%N.

Definition is_upper_char (c : ascii) : bool :=
  let n := N_of_ascii c in ((65 <=? n) && (n <=? 90))%N.

(** [str.upper] on one ASCII character: a lower-case letter goes to its
    upper-case form, any other ASCII character stays. *)
Definition upper_char (c : ascii) : ascii :=
  if is_lower_char c then ascii_of_N (N_of_ascii c - 32) else c.

(** [str.upper], on a string of ASCII characters. *)
Fixpoint upper (s : string) : string :=
  match s with
  | EmptyString => EmptyString
  | String c r => String (upper_char c) (upper r)
  end.

(** [x in l] for a list of strings: some element is [==] to [x]. *)
Definition str_in (x : string) (l : list string) : bool :=
  existsb (String.eqb x) l.

(** Two characters are the same letter: equal, or one is the upper-case
    form of the other. *)
Definition same_letter (a b : ascii) : bool :=
  Ascii.eqb a b || Ascii.eqb (upper_char a) b || Ascii.eqb a (upper_char b).

(** Two strings are equal up to the letter-case of their characters. *)
Fixpoint eq_ignore_case (s t : string) : bool :=
  match s, t with
  | EmptyString, EmptyString => true
  | String a s', String b t' => same_letter a b && eq_ignore_case s' t'
  | _, _ => false
  end.

(** A string with no upper-case letter in it. *)
Fixpoint is_lowercase (s : string) : bool :=
  match s with
  | EmptyString => true
  | String c r => negb (is_upper_char c) && is_lowercase r
  end.

End PyStr.

Import PyStr.

(** ** The enumeration [AutoLoaderFormat] *)

Inductive AutoLoaderFormat : Type :=
| JSON | CSV | PARQUET | AVRO | ORC | TEXT | BINARYFILE.

(** [f.name] *)
Definition name (f : AutoLoaderFormat) : string :=
  match f with
  | JSON => "JSON"
  | CSV => "CSV"
  | PARQUET => "PARQUET"
  | AVRO => "AVRO"
  | ORC => "ORC"
  | TEXT => "TEXT"
  | BINARYFILE => "BINARYFILE"
  end.

(** [f.value] *)
Definition value (f : AutoLoaderFormat) : string :=
  match f with
  | JSON => "json"
  | CSV => "csv"
  | PARQUET => "parquet"
  | AVRO => "avro"
  | ORC => "orc"
  | TEXT => "text"
  | BINARYFILE => "binaryfile"
  end.

#[global] Instance AutoLoaderFormat_eq_dec : EqDecision AutoLoaderFormat.
Proof. solve_decision. Defined.

(** Iterating the class yields its members in definition order. *)
Definition members : list AutoLoaderFormat :=
  [JSON; CSV; PARQUET; AVRO; ORC; TEXT; BINARYFILE].

(** [getattr(AutoLoaderFormat, attr)] for a member name; any other
    attribute name is an [AttributeError].  The validator only calls it
    with a string that passed the membership test, which is a member name. *)
Definition getattr_AutoLoaderFormat (attr : string) : Res AutoLoaderFormat :=
  match find (fun f => String.eqb (name f) attr) members with
  | Some f => Return f
  | None => Raise (AttributeError attr)
  end.

(** ** The [format] field validator *)

(** The value of [format_specified]: a [str] or a member of the
    enumeration (the field is [Union[str, AutoLoaderFormat]]). *)
Inductive FormatValue : Type :=
| FormatStr (s : string)
| FormatEnum (f : AutoLoaderFormat).

(** [x.value]: defined on a member, absent on a [str]. *)
Definition attr_value (x : FormatValue) : Res string :=
  match x with
  | FormatEnum f => Return (value f)
  | FormatStr _ => Raise (AttributeError "'str' object has no attribute 'value'")
  end.

(** [[f.value.upper() for f in AutoLoaderFormat]] *)
Definition known_upper : list string :=
  map (fun f => upper (value f)) members.

Definition validate_format (format_specified : FormatValue) : Res string :=
  (let? format_specified :=
     match format_specified with
     | FormatStr s =>
         if str_in (upper s) known_upper
         then (let? m := getattr_AutoLoaderFormat (upper s) in
               Return (FormatEnum m))
         else Return format_specified
     | FormatEnum _ => Return format_specified
     end in
   let? v := attr_value format_specified in
   Return v)%res.

(** The input [x] denotes the format [f]: it is the member [f] itself, or a
    string that is the name of [f] in some letter-case. *)
Definition denotes (x : FormatValue) (f : AutoLoaderFormat) : bool :=
  match x with
  | FormatEnum g => bool_decide (g = f)
  | FormatStr s => eq_ignore_case s (value f)
  end.

(** ** The world: dict objects and filesystem accesses *)

(** A [Dict[str, str]] value. *)
Abbreviation Dict := (gmap string string).

Inductive FsAccess : Type :=
| FsExists (p : string)
| FsReadText (p : string).

Record World : Type := mkWorld {
  heap : gmap nat Dict;          (* the dict objects, by reference (a [nat]) *)
  fs_log : list FsAccess         (* filesystem accesses made so far *)
}.

(** Computations that read and write the world and may raise. *)
Definition Py (A : Type) : Type := World -> Res A * World.

Definition ret {A : Type} (a : A) : Py A := fun w => (Return a, w).

Definition raise {A : Type} (e : PyExc) : Py A := fun w => (Raise e, w).

Definition bind {A B : Type} (c : Py A) (k : A -> Py B) : Py B :=
  fun w =>
    match c w with
    | (Return a, w') => k a w'
    | (Raise e, w') => (Raise e, w')
    end.

Definition lift {A : Type} (r : Res A) : Py A := fun w => (r, w).

Declare Scope py_scope.
Delimit Scope py_scope with py.
Notation "x <- c ;; k" := (bind c (fun x => k))
  (at level 100, c at next level, right associativity) : py_scope.
Notation "c ;;; k" := (bind c (fun _ => k))
  (at level 100, right associativity) : py_scope.

(** [dict(d)]: a new dict object holding [d]. *)
Definition alloc (d : Dict) : Py nat :=
  fun w =>
    let r := fresh (dom (heap w)) in
    (Return r, mkWorld (<[r := d]> (heap w)) (fs_log w)).

(** The mapping held by the dict object [r]. *)
Definition deref (r : nat) : Py Dict :=
  fun w => (Return (heap w !!! r), w).

(** [r.update(other)]: every entry of [other] is set in the object [r],
    in place. *)
Definition dict_update (r : nat) (other : Dict) : Py unit :=
  fun w => (Return tt, mkWorld (alter (fun d => other ∪ d) r (heap w)) (fs_log w)).

(** ** Collaborators

    [pathlib], the filesystem, [json] and [pyspark.sql.types.StructType] are
    outside this module; they are taken as interfaces. *)

(** [pathlib.Path]: a path object, by its string form [str(p)]. *)
Record Path : Type := mkPath { path_str : string }.

Class FileSystem : Type := {
  (* [str(Path(s))]: the string form a [Path] keeps of the string [s] *)
  normpath : string -> string;
  (* whether the path exists *)
  fs_exists : string -> bool;
  (* the text of the file at the path, or the error of the read *)
  fs_read_text : string -> Res string
}.

Class SchemaCodec (Json StructType : Type) : Type := {
  json_loads : string -> Res Json;
  StructType_fromJson : Json -> Res StructType
}.

(** A [str] or a [Path]: what [Path(...)] is applied to. *)
Inductive PathLike : Type :=
| PStr (s : string)
| PPath (p : Path).

Section AutoLoader.

Context {Json StructType : Type}.
Context `{FS : FileSystem} `{Codec : SchemaCodec Json StructType}.

(** [Path(s)] *)
Definition Path_of_str (s : string) : Path := mkPath (normpath s).

(** [p.exists()] *)
Definition Path_exists (p : Path) : Py bool :=
  fun w => (Return (fs_exists (path_str p)),
            mkWorld (heap w) (fs_log w ++ [FsExists (path_str p)])).

(** [p.read_text()] *)
Definition Path_read_text (p : Path) : Py string :=
  fun w => (fs_read_text (path_str p),
            mkWorld (heap w) (fs_log w ++ [FsReadText (path_str p)])).

(** [Path(x)] *)
Definition Path_of (x : PathLike) : Path :=
  match x with
  | PStr s => Path_of_str s
  | PPath p => p
  end.

(** [f"{x}"] *)
Definition fmt (x : PathLike) : string :=
  match x with
  | PStr s => s
  | PPath p => path_str p
  end.

(** The value of [schema_specified] when it is not [None] (the field is
    [Optional[Union[Path, str, StructType]]]). *)
Inductive SchemaValue : Type :=
| SchemaFile (x : PathLike)
| SchemaStruct (st : StructType).

(** *** The [schema] field validator *)

Definition validate_schema (schema_specified : option SchemaValue)
  : Py (option StructType) :=
  match schema_specified with
  | Some (SchemaStruct st) => ret (Some st)
  | Some (SchemaFile schema) =>
      let schema_path := Path_of schema in
      (found <- Path_exists schema_path ;;
       text <- (if found then Path_read_text schema_path
                else raise (FileNotFoundError
                              ("Schema file not found at path " ++ fmt schema))) ;;
       j <- lift (json_loads text) ;;
       st <- lift (StructType_fromJson j) ;;
       ret (Some st))%py
  | None => ret None
  end.

(** *** The engine's stream reader

    The builder records the calls made on it, in order; [load] closes the
    request and yields the lazy dataset handle. *)

Inductive ReaderCall : Type :=
| CallFormat (source : string)
| CallSchema (st : StructType)
| CallOptions (kwargs : Dict)
| CallLoad (path : string).

Record DataStreamReader : Type := mkReader { calls : list ReaderCall }.

Record DataFrame : Type := mkDataFrame { plan : list ReaderCall }.

(** [spark.readStream] *)
Definition readStream : DataStreamReader := mkReader [].

Definition reader_format (source : string) (r : DataStreamReader) :=
  mkReader (calls r ++ [CallFormat source]).

Definition reader_schema (st : StructType) (r : DataStreamReader) :=
  mkReader (calls r ++ [CallSchema st]).

Definition reader_options (kwargs : Dict) (r : DataStreamReader) :=
  mkReader (calls r ++ [CallOptions kwargs]).

(** [r.options] called with the mapping unpacked: the entries are passed as
    keyword arguments of the method, whose own parameter is [self] and
    which takes any further keywords as the options.  A key named [self]
    collides with the method's own parameter and the call is a [TypeError];
    any other string is accepted as a keyword. *)
Definition reader_options_unpack (kwargs : Dict) (r : DataStreamReader)
  : Res DataStreamReader :=
  match kwargs !! "self" with
  | Some _ =>
      Raise (TypeError
               "DataStreamReader.options() got multiple values for argument 'self'")
  | None => Return (reader_options kwargs r)
  end.

Definition reader_load (path : string) (r : DataStreamReader) : DataFrame :=
  mkDataFrame (calls r ++ [CallLoad path]).

(** *** The step *)

Record AutoLoader : Type := mkAutoLoader {
  format : string;
  location : string;
  schema_location : string;
  options : option nat;            (* [None], or a reference to a dict *)
  schema : option StructType;
  output_df : option DataFrame     (* [self.output.df] *)
}.

Definition get_options (self : AutoLoader) : Py nat :=
  match options self with
  | Some r =>
      (dict_update r {[ "cloudFiles.format" := format self;
                        "cloudFiles.schemaLocation" := schema_location self ]} ;;;
       ret r)%py
  | None => raise (AttributeError "'NoneType' object has no attribute 'update'")
  end.

(** The mapping the merge of [get_options] leaves in a dict object that
    held [m]: the two mandatory keys set, in the order of the literal. *)
Definition merged (self : AutoLoader) (m : Dict) : Dict :=
  <["cloudFiles.format" := format self]>
    (<["cloudFiles.schemaLocation" := schema_location self]> m).

Definition reader (self : AutoLoader) : Py DataStreamReader :=
  let reader := reader_format "cloudFiles" readStream in
  let reader :=
    match schema self with
    | Some st => reader_schema st reader
    | None => reader
    end in
  (r <- get_options self ;;
   kwargs <- deref r ;;
   reader <- lift (reader_options_unpack kwargs reader) ;;
   ret reader)%py.

Definition execute (self : AutoLoader) : Py AutoLoader :=
  (rd <- reader self ;;
   ret (mkAutoLoader (format self) (location self) (schema_location self)
          (options self) (schema self)
          (Some (reader_load (location self) rd))))%py.

(** Modelled from the spec: the construction of the step, which is the
    model class of [koheesio.models] and not part of this module.  The
    configuration is validated at construction time, fail fast: each field
    validator runs on its field, in the order the fields are declared, and
    the instance holds the validated values; the instance's [options] is
    a dict object of its own holding the caller's entries. *)
Definition AutoLoader_init (format : FormatValue)
    (location schema_location : string) (options : option Dict)
    (schema : option SchemaValue) : Py AutoLoader :=
  (f <- lift (validate_format format) ;;
   o <- match options with
        | Some d => (r <- alloc d ;; ret (Some r))
        | None => ret None
        end ;;
   s <- validate_schema schema ;;
   ret (mkAutoLoader f location schema_location o s None))%py.

End AutoLoader.

(** ** A small concrete platform, used by the examples

    One file exists, [/schemas/events.json], holding the JSON text of the
    empty struct; every other path is absent. *)

#[local] Unset Elimination Schemes.
Inductive JsonValue : Type :=
| JStr (s : string)
| JArr (items : list JsonValue)
| JObj (entries : list (string * JsonValue)).
#[local] Set Elimination Schemes.

Inductive SparkStruct : Type :=
| StructOf (fields : list JsonValue).

Definition dq : string := String (ascii_of_nat 34) EmptyString.

(** The text [{"fields":[],"type":"struct"}]. *)
Definition empty_struct_text : string :=
  "{" ++ dq ++ "fields" ++ dq ++ ":[]," ++ dq ++ "type" ++ dq ++ ":"
      ++ dq ++ "struct" ++ dq ++ "}".

Definition events_json : string := "/schemas/events.json".

Definition example_fs : FileSystem := {|
  normpath := fun s => s;
  fs_exists := fun p => String.eqb p events_json;
  fs_read_text := fun p =>
    if String.eqb p events_json then Return empty_struct_text
    else Raise (FileNotFoundError p)
|}.

Fixpoint json_get (key : string) (entries : list (string * JsonValue))
  : option JsonValue :=
  match entries with
  | [] => None
  | (k, v) :: rest => if String.eqb k key then Some v else json_get key rest
  end.

Definition example_codec : SchemaCodec JsonValue SparkStruct := {|
  json_loads := fun text =>
    if String.eqb text empty_struct_text
    then Return (JObj [("fields", JArr []); ("type", JStr "struct")])
    else Raise (JSONDecodeError text);
  StructType_fromJson := fun j =>
    match j with
    | JObj entries =>
        match json_get "type" entries, json_get "fields" entries with
        | Some (JStr "struct"), Some (JArr fields) => Return (StructOf fields)
        | _, _ => Raise (SchemaError "not a struct")
        end
    | _ => Raise (SchemaError "not a struct")
    end
|}.

(** An instance on that platform, as [AutoLoader_init] leaves it, and a
    world in which its [options] is the dict object [0]. *)
Definition example_loader : AutoLoader (StructType := SparkStruct) :=
  mkAutoLoader "csv" "s3://bucket/in" "s3://bucket/schema" (Some 0%nat) None None.

Definition example_loader_with_schema : AutoLoader (StructType := SparkStruct) :=
  mkAutoLoader "csv" "s3://bucket/in" "s3://bucket/schema" (Some 0%nat)
    (Some (StructOf [])) None.

Definition example_world : World :=
  mkWorld {[ 0%nat := {[ "multiLine" := "true"; "cloudFiles.format" := "xml" ]} ]} [].

(** ** Letters, and a platform with unreadable and malformed files *)

(** An ASCII character (code point below 128). *)
Definition is_ascii_char (c : ascii) : bool := (N_of_ascii c <? 128)%N.

(** [s.isascii()]: a string of ASCII characters only. *)
Fixpoint is_ascii (s : string) : bool :=
  match s with
  | EmptyString => true
  | String c r => is_ascii_char c && is_ascii r
  end.

(** The format input is ASCII text: a member, or an ASCII string. *)
Definition ascii_input (x : FormatValue) : bool :=
  match x with
  | FormatStr s => is_ascii s
  | FormatEnum _ => true
  end.

(** An ASCII letter. *)
Definition is_letter_char (c : ascii) : bool :=
  is_lower_char c || is_upper_char c.

(** A string made of ASCII letters only. *)
Fixpoint all_letters (s : string) : bool :=
  match s with
  | EmptyString => true
  | String c r => is_letter_char c && all_letters r
  end.

(** Besides [/schemas/events.json], the directory [/schemas] exists and
    cannot be read as text, [/schemas/broken.json] holds text that is not
    JSON, and [/schemas/list.json] holds JSON that is not a struct. *)
Definition faulty_fs : FileSystem := {|
  normpath := fun s => s;
  fs_exists := fun p =>
    String.eqb p events_json || String.eqb p "/schemas"
    || String.eqb p "/schemas/broken.json" || String.eqb p "/schemas/list.json";
  fs_read_text := fun p =>
    if String.eqb p events_json then Return empty_struct_text
    else if String.eqb p "/schemas" then Raise (OSError "Is a directory")
    else if String.eqb p "/schemas/broken.json" then Return "{"
    else if String.eqb p "/schemas/list.json" then Return "[]"
    else Raise (FileNotFoundError p)
|}.

Definition faulty_codec : SchemaCodec JsonValue SparkStruct := {|
  json_loads := fun text =>
    if String.eqb text empty_struct_text
    then Return (JObj [("fields", JArr []); ("type", JStr "struct")])
    else if String.eqb text "[]" then Return (JArr [])
    else Raise (JSONDecodeError text);
  StructType_fromJson := StructType_fromJson (SchemaCodec := example_codec)
|}.

(** A world in which the dict object [0] has an entry under the key
    [self]. *)
Definition example_world_self : World :=
  mkWorld {[ 0%nat := {[ "self" := "x" ]} ]} [].

(** An instance whose [options] is [None]. *)
Definition example_loader_no_options : AutoLoader (StructType := SparkStruct) :=
  mkAutoLoader "csv" "s3://bucket/in" "s3://bucket/schema" None None None.

(** * Facts *)

(** ** Letter-case *)

Section LetterCase.

Local Open Scope N_scope.

Lemma N_of_upper_char (c : ascii) :
  N_of_ascii (upper_char c) =
  if is_lower_char c then N_of_ascii c - 32 else N_of_ascii c.
Proof.
  unfold upper_char. destruct (is_lower_char c) eqn:E; [|reflexivity].
  apply N_ascii_embedding. pose proof (N_ascii_bounded c). lia.
Qed.

Lemma ascii_eq_N (a b : ascii) : a = b <-> N_of_ascii a = N_of_ascii b.
Proof.
  split; [congruence|]. intros E.
  rewrite <- (ascii_N_embedding a), <- (ascii_N_embedding b). congruence.
Qed.

Lemma same_letter_upper (a b : ascii) :
  same_letter a b = true <-> upper_char a = upper_char b.
Proof.
  unfold same_letter. rewrite !orb_true_iff, !Ascii.eqb_eq, !ascii_eq_N.
  rewrite !N_of_upper_char. unfold is_lower_char.
  pose proof (N_ascii_bounded a). pose proof (N_ascii_bounded b).
  cbv zeta.
  destruct (N.leb_spec 97 (N_of_ascii a)); destruct (N.leb_spec (N_of_ascii a) 122);
  destruct (N.leb_spec 97 (N_of_ascii b)); destruct (N.leb_spec (N_of_ascii b) 122);
  cbn [andb]; lia.
Qed.

Lemma eq_ignore_case_upper (s t : string) :
  eq_ignore_case s t = true <-> upper s = upper t.
Proof.
  revert t. induction s as [|a s IH]; intros [|b t]; cbn; try (split; congruence).
  rewrite andb_true_iff, same_letter_upper, IH. split.
  - intros [-> ->]. reflexivity.
  - intros E. injection E. auto.
Qed.

End LetterCase.

Lemma str_in_known_upper (u : string) :
  str_in u known_upper = true <-> exists f, u = upper (value f).
Proof.
  unfold str_in. rewrite existsb_exists. split.
  - intros (x & Hin & E). apply String.eqb_eq in E. subst x.
    unfold known_upper in Hin. apply in_map_iff in Hin.
    destruct Hin as (f & E & _). exists f. symmetry. exact E.
  - intros [f ->]. exists (upper (value f)). split; [|apply String.eqb_refl].
    unfold known_upper. apply (in_map (fun g => upper (value g))).
    destruct f; cbn; tauto.
Qed.

Lemma getattr_member (f : AutoLoaderFormat) :
  getattr_AutoLoaderFormat (upper (value f)) = Return f.
Proof. destruct f; reflexivity. Qed.

Lemma value_is_lowercase (f : AutoLoaderFormat) : is_lowercase (value f) = true.
Proof. destruct f; reflexivity. Qed.

(** ** The format validator *)

Example validate_format_JSON : validate_format (FormatStr "JSON") = Return "json".
Proof. reflexivity. Qed.

Example validate_format_Json : validate_format (FormatStr "Json") = Return "json".
Proof. reflexivity. Qed.

Example validate_format_enum : validate_format (FormatEnum ORC) = Return "orc".
Proof. reflexivity. Qed.

Example validate_format_padded :
  validate_format (FormatStr " json") =
  Raise (AttributeError "'str' object has no attribute 'value'").
Proof. reflexivity. Qed.

Lemma validate_format_matched (s : string) (f : AutoLoaderFormat) :
  upper s = upper (value f) -> validate_format (FormatStr s) = Return (value f).
Proof.
  intros E. unfold validate_format.
  assert (Hin : str_in (upper s) known_upper = true)
    by (apply str_in_known_upper; eauto).
  rewrite Hin, E, getattr_member. reflexivity.
Qed.

Lemma validate_format_unmatched (s : string) :
  str_in (upper s) known_upper = false ->
  validate_format (FormatStr s) =
  Raise (AttributeError "'str' object has no attribute 'value'").
Proof. intros E. unfold validate_format. rewrite E. reflexivity. Qed.

(** C1 (as amended): a string of ASCII characters that does not match, in
    any letter-case, one of the seven format names is not passed through:
    the validator returns no value and fails with the [AttributeError] of
    looking up [value] on a [str]. *)
Theorem validate_format_rejects_unknown (s : string) :
  is_ascii s = true ->
  (forall f, eq_ignore_case s (value f) = false) ->
  validate_format (FormatStr s) =
  Raise (AttributeError "'str' object has no attribute 'value'").
Proof.
  intros _ Hno. apply validate_format_unmatched.
  destruct (str_in (upper s) known_upper) eqn:E; [|reflexivity].
  apply str_in_known_upper in E. destruct E as [f E].
  apply eq_ignore_case_upper in E. rewrite Hno in E. discriminate.
Qed.

Lemma validate_format_rejects_unknown_witness :
  is_ascii "delta" = true /\
  (forall f, eq_ignore_case "delta" (value f) = false) /\
  validate_format (FormatStr "delta") =
  Raise (AttributeError "'str' object has no attribute 'value'").
Proof.
  split; [reflexivity|]. split.
  - intros f. destruct f; reflexivity.
  - apply (validate_format_rejects_unknown "delta"); [reflexivity|].
    intros f. destruct f; reflexivity.
Defined.

(** C1 (as stated) fails: ["delta"] matches none of the seven names, and the
    validator does not return it. *)
Lemma validate_format_delta_not_passed_through :
  (forall f, eq_ignore_case "delta" (value f) = false) /\
  validate_format (FormatStr "delta") <> Return "delta" /\
  validate_format (FormatStr "delta") =
  Raise (AttributeError "'str' object has no attribute 'value'").
Proof.
  split; [intros f; destruct f; reflexivity|].
  split; [discriminate|reflexivity].
Qed.

(** C2: an input that denotes one of the seven formats, as the member itself
    or as its name in any letter-case, is validated to that member's value,
    which is a lower-case string; so all spellings of one format yield the
    same string. *)
Theorem validate_format_canonical (x : FormatValue) (f : AutoLoaderFormat) :
  denotes x f = true ->
  validate_format x = Return (value f) /\ is_lowercase (value f) = true.
Proof.
  intros H. split; [|apply value_is_lowercase].
  destruct x as [s|g]; cbn in H.
  - apply validate_format_matched, eq_ignore_case_upper, H.
  - apply bool_decide_eq_true in H. subst g. reflexivity.
Qed.

Lemma validate_format_canonical_witness :
  denotes (FormatStr "Json") JSON = true /\
  (validate_format (FormatStr "Json") = Return "json" /\
   is_lowercase "json" = true).
Proof.
  split; [reflexivity|].
  apply (validate_format_canonical (FormatStr "Json") JSON). reflexivity.
Defined.

(** ** The schema validator *)

Section SchemaFacts.

Context {Json StructType : Type}.
Context `{FS : FileSystem} `{Codec : SchemaCodec Json StructType}.

(** C4: a schema given as a string or a path that does not exist is
    rejected with [FileNotFoundError], whose message ends with the path as
    it was given; no schema object is returned, and the only filesystem
    access is the existence check. *)
Theorem validate_schema_missing_file (x : PathLike) (w : World) :
  fs_exists (path_str (Path_of x)) = false ->
  validate_schema (Some (SchemaFile x)) w =
  (Raise (FileNotFoundError ("Schema file not found at path " ++ fmt x)),
   mkWorld (heap w) (fs_log w ++ [FsExists (path_str (Path_of x))])).
Proof.
  intros Hmissing. unfold validate_schema, bind, Path_exists. cbn.
  rewrite Hmissing. reflexivity.
Qed.

(** C5: a schema given as a path to an existing file whose text is the JSON
    of a struct schema resolves to the schema [StructType.fromJson] builds
    from [json.loads] of the whole text. *)
Theorem validate_schema_reads_file (x : PathLike) (w : World)
    (text : string) (j : Json) (st : StructType) :
  fs_exists (path_str (Path_of x)) = true ->
  fs_read_text (path_str (Path_of x)) = Return text ->
  json_loads text = Return j ->
  StructType_fromJson j = Return st ->
  validate_schema (Some (SchemaFile x)) w =
  (Return (Some st),
   mkWorld (heap w)
     (fs_log w ++ [FsExists (path_str (Path_of x));
                   FsReadText (path_str (Path_of x))])).
Proof.
  intros Hex Hread Hjson Hstruct.
  unfold validate_schema, bind, Path_exists, Path_read_text, lift, ret. cbn.
  rewrite Hex. cbn. rewrite Hread, Hjson, Hstruct. cbn.
  rewrite <- app_assoc. reflexivity.
Qed.

(** C6: [None] resolves to [None] and a struct schema resolves to itself;
    in both cases the world is left as it was, so the filesystem is neither
    asked for existence nor read, whatever it holds. *)
Theorem validate_schema_no_fs_access (st : StructType) (w : World) :
  validate_schema None w = (Return None, w) /\
  validate_schema (Some (SchemaStruct st)) w = (Return (Some st), w).
Proof. split; reflexivity. Qed.

End SchemaFacts.

Lemma validate_schema_missing_file_witness :
  fs_exists (FileSystem := example_fs)
    (path_str (Path_of (FS := example_fs) (PStr "/schemas/missing.json"))) = false /\
  validate_schema (FS := example_fs) (Codec := example_codec)
    (Some (SchemaFile (PStr "/schemas/missing.json"))) example_world =
  (Raise (FileNotFoundError "Schema file not found at path /schemas/missing.json"),
   mkWorld (heap example_world) [FsExists "/schemas/missing.json"]).
Proof.
  split; [reflexivity|].
  apply (validate_schema_missing_file (FS := example_fs) (Codec := example_codec)
           (PStr "/schemas/missing.json") example_world).
  reflexivity.
Defined.

Lemma validate_schema_reads_file_witness :
  fs_exists (FileSystem := example_fs)
    (path_str (Path_of (FS := example_fs) (PStr events_json))) = true /\
  validate_schema (FS := example_fs) (Codec := example_codec)
    (Some (SchemaFile (PStr events_json))) example_world =
  (Return (Some (StructOf [])),
   mkWorld (heap example_world) [FsExists events_json; FsReadText events_json]).
Proof.
  split; [reflexivity|].
  apply (validate_schema_reads_file (FS := example_fs) (Codec := example_codec)
           (PStr events_json) example_world empty_struct_text
           (JObj [("fields", JArr []); ("type", JStr "struct")]) (StructOf []));
    reflexivity.
Defined.

(** ** The options merger *)

Lemma update_mandatory (fmt_v loc_v : string) (m : Dict) :
  {[ "cloudFiles.format" := fmt_v; "cloudFiles.schemaLocation" := loc_v ]} ∪ m =
  <["cloudFiles.format" := fmt_v]> (<["cloudFiles.schemaLocation" := loc_v]> m).
Proof.
  rewrite <- insert_union_l. f_equal.
  rewrite <- insert_empty, <- insert_union_l. f_equal.
  apply (left_id_L ∅ (∪)).
Qed.

Section OptionsFacts.

Context {StructType : Type}.

Implicit Type self : @AutoLoader StructType.

Lemma get_options_run self (r : nat) (m : Dict) (w : World) :
  options self = Some r ->
  heap w !! r = Some m ->
  get_options self w =
  (Return r, mkWorld (<[r := merged self m]> (heap w)) (fs_log w)).
Proof.
  intros Hopt Hm. unfold get_options, bind, dict_update, ret. rewrite Hopt. cbn.
  do 2 f_equal. apply map_eq. intros i.
  destruct (decide (r = i)) as [->|Hne].
  - rewrite lookup_alter_eq, lookup_insert_eq, Hm. cbn.
    f_equal. apply update_mandatory.
  - rewrite lookup_alter_ne, lookup_insert_ne by done. reflexivity.
Qed.

(** Without a dict ([options] is [None]) the merge fails. *)
Lemma get_options_None self (w : World) :
  options self = None ->
  get_options self w =
  (Raise (AttributeError "'NoneType' object has no attribute 'update'"), w).
Proof. intros Hopt. unfold get_options. rewrite Hopt. reflexivity. Qed.

(** C3: whatever the instance's options mapping holds, also under the two
    mandatory keys, the mapping the merger produces maps [cloudFiles.format]
    to the instance's validated format string and [cloudFiles.schemaLocation]
    to its schema location. *)
Theorem get_options_sets_mandatory_keys
    self (r : nat) (m : Dict) (w : World) :
  options self = Some r ->
  heap w !! r = Some m ->
  exists (w' : World) (m' : Dict),
    get_options self w = (Return r, w') /\
    heap w' !! r = Some m' /\
    m' !! "cloudFiles.format" = Some (format self) /\
    m' !! "cloudFiles.schemaLocation" = Some (schema_location self).
Proof.
  intros Hopt Hm. eexists _, (merged self m).
  split; [apply get_options_run; eassumption|]. cbn.
  split; [apply lookup_insert_eq|]. unfold merged. split.
  - apply lookup_insert_eq.
  - rewrite lookup_insert_ne by discriminate. apply lookup_insert_eq.
Qed.

(** C9: the merge is made in the instance's own dict object: the merger
    returns the very reference the [options] field holds, the object it
    names holds the merged mapping afterwards, and no other object is
    created or changed. *)
Theorem get_options_in_place
    self (r : nat) (m : Dict) (w : World) :
  options self = Some r ->
  heap w !! r = Some m ->
  exists (returned : nat) (w' : World),
    get_options self w = (Return returned, w') /\
    options self = Some returned /\
    heap w' !! returned = Some (merged self m) /\
    deref returned w' = (Return (merged self m), w') /\
    dom (heap w') = dom (heap w) /\
    (forall r', r' <> r -> heap w' !! r' = heap w !! r').
Proof.
  intros Hopt Hm. exists r. eexists.
  split; [apply get_options_run; eassumption|]. cbn.
  split; [exact Hopt|].
  split; [apply lookup_insert_eq|].
  split; [unfold deref; cbn; by rewrite lookup_total_insert_eq|].
  split.
  - apply dom_insert_lookup_L. eauto.
  - intros r' Hne. by rewrite lookup_insert_ne.
Qed.

(** C10: every key other than the two mandatory ones is mapped by the
    merged mapping exactly as by the mapping before the merge (to the same
    value, or not at all). *)
Theorem get_options_keeps_other_keys
    self (r : nat) (m : Dict) (w : World) (k : string) :
  options self = Some r ->
  heap w !! r = Some m ->
  k <> "cloudFiles.format" ->
  k <> "cloudFiles.schemaLocation" ->
  exists (w' : World) (m' : Dict),
    get_options self w = (Return r, w') /\
    heap w' !! r = Some m' /\
    m' !! k = m !! k.
Proof.
  intros Hopt Hm Hk1 Hk2. eexists _, (merged self m).
  split; [apply get_options_run; eassumption|]. cbn.
  split; [apply lookup_insert_eq|]. unfold merged.
  by rewrite !lookup_insert_ne.
Qed.

End OptionsFacts.

Lemma get_options_sets_mandatory_keys_witness :
  options example_loader = Some 0%nat /\
  heap example_world !! 0%nat =
    Some {[ "multiLine" := "true"; "cloudFiles.format" := "xml" ]} /\
  exists (w' : World) (m' : Dict),
    get_options example_loader example_world = (Return 0%nat, w') /\
    heap w' !! 0%nat = Some m' /\
    m' !! "cloudFiles.format" = Some "csv" /\
    m' !! "cloudFiles.schemaLocation" = Some "s3://bucket/schema".
Proof.
  split; [reflexivity|]. split; [reflexivity|].
  apply (get_options_sets_mandatory_keys example_loader 0%nat
           {[ "multiLine" := "true"; "cloudFiles.format" := "xml" ]} example_world);
    reflexivity.
Defined.

Lemma get_options_in_place_witness :
  options example_loader = Some 0%nat /\
  heap example_world !! 0%nat =
    Some {[ "multiLine" := "true"; "cloudFiles.format" := "xml" ]} /\
  exists (returned : nat) (w' : World),
    get_options example_loader example_world = (Return returned, w') /\
    options example_loader = Some returned /\
    heap w' !! returned =
      Some (merged example_loader
              {[ "multiLine" := "true"; "cloudFiles.format" := "xml" ]}) /\
    deref returned w' =
      (Return (merged example_loader
                 {[ "multiLine" := "true"; "cloudFiles.format" := "xml" ]}), w') /\
    dom (heap w') = dom (heap example_world) /\
    (forall r', r' <> 0%nat -> heap w' !! r' = heap example_world !! r').
Proof.
  split; [reflexivity|]. split; [reflexivity|].
  apply (get_options_in_place example_loader 0%nat
           {[ "multiLine" := "true"; "cloudFiles.format" := "xml" ]} example_world);
    reflexivity.
Defined.

Lemma get_options_keeps_other_keys_witness :
  options example_loader = Some 0%nat /\
  heap example_world !! 0%nat =
    Some {[ "multiLine" := "true"; "cloudFiles.format" := "xml" ]} /\
  "multiLine" <> "cloudFiles.format" /\
  "multiLine" <> "cloudFiles.schemaLocation" /\
  exists (w' : World) (m' : Dict),
    get_options example_loader example_world = (Return 0%nat, w') /\
    heap w' !! 0%nat = Some m' /\
    m' !! "multiLine" =
      ({[ "multiLine" := "true"; "cloudFiles.format" := "xml" ]} : Dict) !! "multiLine".
Proof.
  split; [reflexivity|]. split; [reflexivity|].
  split; [discriminate|]. split; [discriminate|].
  apply (get_options_keeps_other_keys example_loader 0%nat
           {[ "multiLine" := "true"; "cloudFiles.format" := "xml" ]} example_world
           "multiLine");
    [reflexivity | reflexivity | discriminate | discriminate].
Defined.

(** ** The request and its execution *)

Section ExecuteFacts.

Context {StructType : Type}.

Implicit Type self : @AutoLoader StructType.

Lemma merged_lookup_self self (m : Dict) :
  merged self m !! "self" = m !! "self".
Proof. unfold merged. by rewrite !lookup_insert_ne. Qed.

Lemma reader_run self (r : nat) (m : Dict) (w : World) :
  options self = Some r ->
  heap w !! r = Some m ->
  m !! "self" = None ->
  reader self w =
  (Return (mkReader
             (CallFormat "cloudFiles" ::
              match schema self with Some st => [CallSchema st] | None => [] end ++
              [CallOptions (merged self m)])),
   mkWorld (<[r := merged self m]> (heap w)) (fs_log w)).
Proof.
  intros Hopt Hm Hself. unfold reader, bind.
  rewrite (get_options_run self r m w Hopt Hm).
  unfold deref, ret, lift, reader_options_unpack. cbn.
  rewrite lookup_total_insert_eq, merged_lookup_self, Hself.
  destruct (schema self); reflexivity.
Qed.

(** A key named [self] among the options makes the request fail at the
    options call, after the merge has been made. *)
Lemma reader_run_self self (r : nat) (m : Dict) (w : World) (v : string) :
  options self = Some r ->
  heap w !! r = Some m ->
  m !! "self" = Some v ->
  reader self w =
  (Raise (TypeError
            "DataStreamReader.options() got multiple values for argument 'self'"),
   mkWorld (<[r := merged self m]> (heap w)) (fs_log w)).
Proof.
  intros Hopt Hm Hself. unfold reader, bind.
  rewrite (get_options_run self r m w Hopt Hm).
  unfold deref, ret, lift, reader_options_unpack. cbn.
  rewrite lookup_total_insert_eq, merged_lookup_self, Hself.
  reflexivity.
Qed.

(** C8 (as amended): when the options mapping has no key named [self], the
    request is built by selecting the source type [cloudFiles], then, only
    when the instance has a schema, attaching it, then applying the merged
    options, and the load is issued last, on the instance's location.  With
    a schema the calls are format, schema, options, load in that order;
    without one there is no schema call at all. *)
Theorem execute_call_order self (r : nat) (m : Dict) (w : World) :
  options self = Some r ->
  heap w !! r = Some m ->
  m !! "self" = None ->
  exists (self' : AutoLoader) (w' : World),
    execute self w = (Return self', w') /\
    output_df self' =
      Some (mkDataFrame
              match schema self with
              | Some st =>
                  [CallFormat "cloudFiles"; CallSchema st;
                   CallOptions (merged self m); CallLoad (location self)]
              | None =>
                  [CallFormat "cloudFiles";
                   CallOptions (merged self m); CallLoad (location self)]
              end).
Proof.
  intros Hopt Hm Hself. unfold execute, bind.
  rewrite (reader_run self r m w Hopt Hm Hself). unfold ret.
  do 2 eexists. split; [reflexivity|]. cbn.
  destruct (schema self); reflexivity.
Qed.

End ExecuteFacts.

Lemma execute_call_order_witness :
  options example_loader_with_schema = Some 0%nat /\
  heap example_world !! 0%nat =
    Some {[ "multiLine" := "true"; "cloudFiles.format" := "xml" ]} /\
  ({[ "multiLine" := "true"; "cloudFiles.format" := "xml" ]} : Dict) !! "self"
    = None /\
  exists (self' : AutoLoader) (w' : World),
    execute example_loader_with_schema example_world = (Return self', w') /\
    output_df self' =
      Some (mkDataFrame
              [CallFormat "cloudFiles"; CallSchema (StructOf []);
               CallOptions
                 (merged example_loader_with_schema
                    {[ "multiLine" := "true"; "cloudFiles.format" := "xml" ]});
               CallLoad "s3://bucket/in"]).
Proof.
  split; [reflexivity|]. split; [reflexivity|]. split; [reflexivity|].
  apply (execute_call_order example_loader_with_schema 0%nat
           {[ "multiLine" := "true"; "cloudFiles.format" := "xml" ]} example_world);
    reflexivity.
Defined.

(** C8 (as stated) fails: on an instance with a schema whose options hold
    an entry under the key [self], [execute] raises a [TypeError] at the
    options call: no instance is returned, so no load is issued and no
    output is stored. *)
Lemma execute_self_key_no_load :
  schema example_loader_with_schema = Some (StructOf []) /\
  options example_loader_with_schema = Some 0%nat /\
  heap example_world_self !! 0%nat = Some {[ "self" := "x" ]} /\
  (execute example_loader_with_schema example_world_self).1 =
    Raise (TypeError
             "DataStreamReader.options() got multiple values for argument 'self'") /\
  forall (self' : AutoLoader) (w' : World),
    execute example_loader_with_schema example_world_self <> (Return self', w').
Proof.
  assert (Hrd := reader_run_self example_loader_with_schema 0%nat
                   {[ "self" := "x" ]} example_world_self "x"
                   eq_refl eq_refl eq_refl).
  split; [reflexivity|]. split; [reflexivity|]. split; [reflexivity|].
  unfold execute, bind. rewrite Hrd. split; [reflexivity|].
  intros self' w' H. discriminate H.
Qed.

Section EndToEnd.

Context {Json StructType : Type}.
Context `{FS : FileSystem} `{Codec : SchemaCodec Json StructType}.

Lemma csv_options_merged (self : @AutoLoader StructType) :
  format self = "csv" ->
  schema_location self = "s3://bucket/schema" ->
  merged self {[ "multiLine" := "true" ]} =
  {[ "multiLine" := "true"; "cloudFiles.format" := "csv";
     "cloudFiles.schemaLocation" := "s3://bucket/schema" ]}.
Proof.
  intros Hf Hs. unfold merged. rewrite Hf, Hs. rewrite <- insert_empty.
  rewrite (insert_insert_ne _ "cloudFiles.schemaLocation" "multiLine") by discriminate.
  rewrite (insert_insert_ne _ "cloudFiles.format" "multiLine") by discriminate.
  rewrite insert_empty. reflexivity.
Qed.

(** C7: constructing the step with format ["CSV"], location
    ["s3://bucket/in"], schema location ["s3://bucket/schema"], options
    [{"multiLine": "true"}] and no schema, then executing it, succeeds; the
    instance's options are then exactly the three entries [multiLine],
    [cloudFiles.format = csv] and [cloudFiles.schemaLocation]; the engine is
    asked for source [cloudFiles] with those options and a load of
    ["s3://bucket/in"], with no schema call; the filesystem is not
    touched. *)
Theorem end_to_end_csv (w : World) :
  exists (self : AutoLoader) (w' : World) (r : nat),
    bind (AutoLoader_init (FormatStr "CSV") "s3://bucket/in" "s3://bucket/schema"
            (Some {[ "multiLine" := "true" ]}) None)
         execute w = (Return self, w') /\
    format self = "csv" /\
    schema self = None /\
    options self = Some r /\
    heap w' !! r =
      Some {[ "multiLine" := "true"; "cloudFiles.format" := "csv";
              "cloudFiles.schemaLocation" := "s3://bucket/schema" ]} /\
    output_df self =
      Some (mkDataFrame
              [CallFormat "cloudFiles";
               CallOptions
                 {[ "multiLine" := "true"; "cloudFiles.format" := "csv";
                    "cloudFiles.schemaLocation" := "s3://bucket/schema" ]};
               CallLoad "s3://bucket/in"]) /\
    fs_log w' = fs_log w.
Proof.
  set (r := fresh (dom (heap w))).
  set (self0 := mkAutoLoader (StructType := StructType)
                  "csv" "s3://bucket/in" "s3://bucket/schema" (Some r) None None).
  set (w0 := mkWorld (<[r := {[ "multiLine" := "true" ]}]> (heap w)) (fs_log w)).
  assert (Hinit :
    AutoLoader_init (FormatStr "CSV") "s3://bucket/in" "s3://bucket/schema"
      (Some {[ "multiLine" := "true" ]}) None w = (Return self0, w0))
    by reflexivity.
  assert (Hrd := reader_run self0 r {[ "multiLine" := "true" ]} w0 eq_refl
                   (lookup_insert_eq _ _ _) eq_refl).
  rewrite (csv_options_merged self0 eq_refl eq_refl) in Hrd.
  eexists _, _, r. unfold bind at 1. rewrite Hinit.
  unfold execute, bind. rewrite Hrd. unfold ret.
  split; [reflexivity|]. cbn.
  repeat (split; [reflexivity|]).
  split; [apply lookup_insert_eq|]. split; reflexivity.
Qed.

End EndToEnd.

(** * Further facts *)

(** ** The format validator: what it accepts and what it returns *)

Lemma validate_format_str_inv (s v : string) :
  validate_format (FormatStr s) = Return v ->
  exists f, upper s = upper (value f) /\ v = value f.
Proof.
  intros H. destruct (str_in (upper s) known_upper) eqn:E.
  - apply str_in_known_upper in E. destruct E as [f E]. exists f.
    split; [exact E|].
    rewrite (validate_format_matched s f E) in H. congruence.
  - rewrite (validate_format_unmatched s E) in H. discriminate.
Qed.

Lemma upper_value_inj (f g : AutoLoaderFormat) :
  upper (value f) = upper (value g) -> f = g.
Proof. destruct f, g; intros E; (reflexivity || discriminate E). Qed.

Section Letters.

Local Open Scope N_scope.

Lemma same_letter_is_letter (a b : ascii) :
  same_letter a b = true -> is_letter_char b = true -> is_letter_char a = true.
Proof.
  rewrite same_letter_upper, ascii_eq_N, !N_of_upper_char.
  unfold is_letter_char, is_lower_char, is_upper_char. cbv zeta.
  rewrite !orb_true_iff, !andb_true_iff, !N.leb_le.
  destruct (N.leb_spec 97 (N_of_ascii a)); destruct (N.leb_spec (N_of_ascii a) 122);
  destruct (N.leb_spec 97 (N_of_ascii b)); destruct (N.leb_spec (N_of_ascii b) 122);
  cbn [andb]; lia.
Qed.

Lemma eq_ignore_case_all_letters (s t : string) :
  eq_ignore_case s t = true -> all_letters t = true -> all_letters s = true.
Proof.
  revert t. induction s as [|a s IH]; intros [|b t]; cbn; try congruence.
  rewrite !andb_true_iff. intros [Hab Hst] [Hb Ht]. split.
  - eapply same_letter_is_letter; eassumption.
  - eapply IH; eassumption.
Qed.

End Letters.

Lemma value_all_letters (f : AutoLoaderFormat) : all_letters (value f) = true.
Proof. destruct f; reflexivity. Qed.

(** X1: on a member or a string of ASCII characters, whatever the validator
    returns is the value of a member the input denotes: it never returns a
    string outside the seven values, and never the value of another format
    than the one named. *)
Theorem validate_format_returns_member (x : FormatValue) (v : string) :
  ascii_input x = true ->
  validate_format x = Return v ->
  exists f, denotes x f = true /\ v = value f.
Proof.
  intros _ H. destruct x as [s|g].
  - destruct (validate_format_str_inv s v H) as (f & E & ->).
    exists f. split; [|reflexivity]. cbn. apply eq_ignore_case_upper, E.
  - exists g. split; [apply bool_decide_eq_true; reflexivity|].
    cbn in H. congruence.
Qed.

Lemma validate_format_returns_member_witness :
  ascii_input (FormatStr "Parquet") = true /\
  validate_format (FormatStr "Parquet") = Return "parquet" /\
  exists f, denotes (FormatStr "Parquet") f = true /\ "parquet" = value f.
Proof.
  split; [reflexivity|]. split; [reflexivity|].
  apply (validate_format_returns_member (FormatStr "Parquet") "parquet");
    reflexivity.
Defined.

(** X2: an input denotes at most one format: no two members have values
    that agree up to letter-case. *)
Theorem denotes_unique (x : FormatValue) (f g : AutoLoaderFormat) :
  denotes x f = true -> denotes x g = true -> f = g.
Proof.
  destruct x as [s|h]; cbn.
  - rewrite !eq_ignore_case_upper. intros Ef Eg.
    apply upper_value_inj. congruence.
  - intros Ef Eg. apply bool_decide_eq_true in Ef, Eg. congruence.
Qed.

Lemma denotes_unique_witness :
  denotes (FormatStr "Text") TEXT = true /\
  denotes (FormatStr "Text") TEXT = true /\ TEXT = TEXT.
Proof.
  split; [reflexivity|]. split; [reflexivity|].
  apply (denotes_unique (FormatStr "Text") TEXT TEXT); reflexivity.
Defined.

(** X3: the validator is insensitive to letter-case on every string, known
    or not: two strings equal up to letter-case get the same outcome, the
    same value or the same error. *)
Theorem validate_format_case_insensitive (s t : string) :
  eq_ignore_case s t = true ->
  validate_format (FormatStr s) = validate_format (FormatStr t).
Proof.
  intros E. apply eq_ignore_case_upper in E.
  unfold validate_format. rewrite E.
  destruct (str_in (upper t) known_upper); reflexivity.
Qed.

Lemma validate_format_case_insensitive_witness :
  eq_ignore_case "aVrO" "Avro" = true /\
  validate_format (FormatStr "aVrO") = validate_format (FormatStr "Avro").
Proof.
  split; [reflexivity|].
  apply (validate_format_case_insensitive "aVrO" "Avro"). reflexivity.
Defined.

(** X4: validation is idempotent: a returned value, given back as a string,
    validates to itself. *)
Theorem validate_format_idempotent (x : FormatValue) (v : string) :
  validate_format x = Return v ->
  validate_format (FormatStr v) = Return v.
Proof.
  intros H.
  assert (Hf : exists f, v = value f).
  { destruct x as [s|g].
    - destruct (validate_format_str_inv s v H) as (f & _ & ->). eauto.
    - exists g. cbn in H. congruence. }
  destruct Hf as [f ->]. apply validate_format_matched. reflexivity.
Qed.

Lemma validate_format_idempotent_witness :
  validate_format (FormatEnum BINARYFILE) = Return "binaryfile" /\
  validate_format (FormatStr "binaryfile") = Return "binaryfile".
Proof.
  split; [reflexivity|].
  apply (validate_format_idempotent (FormatEnum BINARYFILE) "binaryfile").
  reflexivity.
Defined.

(** X5: the membership test, made on the members' values, guards the lookup,
    made on the members' names: a string that passes the test is the name
    of a member, so [getattr] succeeds, on the member whose upper-cased
    value is that string. *)
Theorem getattr_after_membership (u : string) :
  str_in u known_upper = true ->
  exists f, getattr_AutoLoaderFormat u = Return f /\
            name f = u /\ upper (value f) = u.
Proof.
  intros H. apply str_in_known_upper in H. destruct H as [f ->].
  exists f. split; [apply getattr_member|].
  split; [destruct f|]; reflexivity.
Qed.

Lemma getattr_after_membership_witness :
  str_in "ORC" known_upper = true /\
  exists f, getattr_AutoLoaderFormat "ORC" = Return f /\
            name f = "ORC" /\ upper (value f) = "ORC".
Proof.
  split; [reflexivity|].
  apply (getattr_after_membership "ORC"). reflexivity.
Defined.

(** X6: nothing is trimmed or skipped: the empty string and every string of
    ASCII characters with a character that is not a letter (a space, a
    digit, a dot) are rejected with the [AttributeError]. *)
Theorem validate_format_rejects_non_letters (s : string) :
  is_ascii s = true ->
  s = "" \/ all_letters s = false ->
  validate_format (FormatStr s) =
  Raise (AttributeError "'str' object has no attribute 'value'").
Proof.
  intros _ H. apply validate_format_unmatched.
  destruct (str_in (upper s) known_upper) eqn:E; [|reflexivity].
  apply str_in_known_upper in E. destruct E as [f E].
  destruct H as [->|H].
  - destruct f; discriminate E.
  - apply eq_ignore_case_upper in E.
    rewrite (eq_ignore_case_all_letters s (value f) E (value_all_letters f)) in H.
    discriminate.
Qed.

Lemma validate_format_rejects_non_letters_witness :
  is_ascii "json " = true /\
  ("json " = "" \/ all_letters "json " = false) /\
  validate_format (FormatStr "json ") =
  Raise (AttributeError "'str' object has no attribute 'value'").
Proof.
  split; [reflexivity|]. split; [right; reflexivity|].
  apply (validate_format_rejects_non_letters "json "); [reflexivity|].
  right. reflexivity.
Defined.

(** ** The schema validator: failures and filesystem use *)

Section SchemaFailures.

Context {Json StructType : Type}.
Context `{FS : FileSystem} `{Codec : SchemaCodec Json StructType}.

(** X7: when the path exists but cannot be read as text, the error of the
    read is raised as it is, after one existence check and one read. *)
Theorem validate_schema_read_error (x : PathLike) (w : World) (e : PyExc) :
  fs_exists (path_str (Path_of x)) = true ->
  fs_read_text (path_str (Path_of x)) = Raise e ->
  validate_schema (Some (SchemaFile x)) w =
  (Raise e,
   mkWorld (heap w)
     (fs_log w ++ [FsExists (path_str (Path_of x));
                   FsReadText (path_str (Path_of x))])).
Proof.
  intros Hex Hread. unfold validate_schema, bind, Path_exists, Path_read_text.
  cbn. rewrite Hex. cbn. rewrite Hread. rewrite <- app_assoc. reflexivity.
Qed.

(** X8: when the file's text is not JSON, or is JSON that is not a struct
    schema, the error of [json.loads], respectively of
    [StructType.fromJson], is raised as it is: it is not caught, and no
    schema is returned. *)
Theorem validate_schema_decode_error (x : PathLike) (w : World)
    (text : string) (e : PyExc) :
  fs_exists (path_str (Path_of x)) = true ->
  fs_read_text (path_str (Path_of x)) = Return text ->
  json_loads text = Raise e \/
  (exists j, json_loads text = Return j /\ StructType_fromJson j = Raise e) ->
  validate_schema (Some (SchemaFile x)) w =
  (Raise e,
   mkWorld (heap w)
     (fs_log w ++ [FsExists (path_str (Path_of x));
                   FsReadText (path_str (Path_of x))])).
Proof.
  intros Hex Hread Hbad.
  unfold validate_schema, bind, Path_exists, Path_read_text, lift.
  cbn. rewrite Hex. cbn. rewrite Hread, <- app_assoc.
  destruct Hbad as [Hjson|(j & Hjson & Hstruct)]; rewrite Hjson.
  - reflexivity.
  - rewrite Hstruct. reflexivity.
Qed.

(** X9: on every input and whatever the outcome, the validator leaves the
    dict objects alone and makes at most two filesystem accesses, appended
    to those made before; it reads only a path it has just checked and
    found to exist. *)
Theorem validate_schema_frame (v : option SchemaValue) (w : World) :
  heap (validate_schema v w).2 = heap w /\
  exists l : list FsAccess,
    fs_log (validate_schema v w).2 = (fs_log w ++ l)%list /\
    (length l <= 2)%nat /\
    forall q, In (FsReadText q) l ->
              fs_exists q = true /\ l = [FsExists q; FsReadText q].
Proof.
  destruct v as [[x|st]|].
  - unfold validate_schema, bind, Path_exists, Path_read_text, lift, ret, raise.
    cbn. destruct (fs_exists (path_str (Path_of x))) eqn:Hex; cbn.
    + assert (Hl : forall q,
                In (FsReadText q)
                   [FsExists (path_str (Path_of x));
                    FsReadText (path_str (Path_of x))] ->
                fs_exists q = true /\
                [FsExists (path_str (Path_of x));
                 FsReadText (path_str (Path_of x))] =
                [FsExists q; FsReadText q]).
      { intros q [Hq|[Hq|[]]]; [discriminate Hq|].
        injection Hq as <-. split; [exact Hex|reflexivity]. }
      destruct (fs_read_text (path_str (Path_of x))) as [text|e]; cbn.
      * destruct (json_loads text) as [j|e]; cbn;
          [destruct (StructType_fromJson j) as [st|e]; cbn|];
          (split; [reflexivity|]; eexists; rewrite <- app_assoc;
           split; [reflexivity|]; split; [cbn; lia|exact Hl]).
      * split; [reflexivity|]. eexists. rewrite <- app_assoc.
        split; [reflexivity|]. split; [cbn; lia|exact Hl].
    + split; [reflexivity|]. eexists. split; [reflexivity|].
      split; [cbn; lia|]. intros q [Hq|[]]. discriminate Hq.
  - cbn. split; [reflexivity|]. exists []. rewrite app_nil_r.
    split; [reflexivity|]. split; [cbn; lia|]. intros q [].
  - cbn. split; [reflexivity|]. exists []. rewrite app_nil_r.
    split; [reflexivity|]. split; [cbn; lia|]. intros q [].
Qed.

(** X10: a schema that was given never resolves to [None]: when the
    validator returns on an input other than [None], it returns a schema
    object, so the engine is never left to infer the schema silently. *)
Theorem validate_schema_given_is_some
    (v : SchemaValue) (w w' : World) (r : option StructType) :
  validate_schema (Some v) w = (Return r, w') ->
  exists st, r = Some st.
Proof.
  destruct v as [x|st]; [|cbn; intros [= <- _]; eauto].
  unfold validate_schema, bind, Path_exists, Path_read_text, lift, ret, raise.
  cbn. destruct (fs_exists (path_str (Path_of x))); cbn; [|discriminate].
  destruct (fs_read_text (path_str (Path_of x))) as [text|e]; cbn; [|discriminate].
  destruct (json_loads text) as [j|e]; cbn; [|discriminate].
  destruct (StructType_fromJson j) as [st|e]; cbn; [|discriminate].
  intros [= <- _]. eauto.
Qed.

End SchemaFailures.

Lemma validate_schema_read_error_witness :
  fs_exists (FileSystem := faulty_fs)
    (path_str (Path_of (FS := faulty_fs) (PStr "/schemas"))) = true /\
  fs_read_text (FileSystem := faulty_fs)
    (path_str (Path_of (FS := faulty_fs) (PStr "/schemas"))) =
    Raise (OSError "Is a directory") /\
  validate_schema (FS := faulty_fs) (Codec := faulty_codec)
    (Some (SchemaFile (PStr "/schemas"))) example_world =
  (Raise (OSError "Is a directory"),
   mkWorld (heap example_world) [FsExists "/schemas"; FsReadText "/schemas"]).
Proof.
  split; [reflexivity|]. split; [reflexivity|].
  apply (validate_schema_read_error (FS := faulty_fs) (Codec := faulty_codec)
           (PStr "/schemas") example_world (OSError "Is a directory"));
    reflexivity.
Defined.

Lemma validate_schema_decode_error_witness :
  fs_exists (FileSystem := faulty_fs)
    (path_str (Path_of (FS := faulty_fs) (PStr "/schemas/list.json"))) = true /\
  fs_read_text (FileSystem := faulty_fs)
    (path_str (Path_of (FS := faulty_fs) (PStr "/schemas/list.json"))) =
    Return "[]" /\
  validate_schema (FS := faulty_fs) (Codec := faulty_codec)
    (Some (SchemaFile (PStr "/schemas/list.json"))) example_world =
  (Raise (SchemaError "not a struct"),
   mkWorld (heap example_world)
     [FsExists "/schemas/list.json"; FsReadText "/schemas/list.json"]).
Proof.
  split; [reflexivity|]. split; [reflexivity|].
  apply (validate_schema_decode_error (FS := faulty_fs) (Codec := faulty_codec)
           (PStr "/schemas/list.json") example_world "[]"
           (SchemaError "not a struct")); [reflexivity|reflexivity|].
  right. exists (JArr []). split; reflexivity.
Defined.

Lemma validate_schema_given_is_some_witness :
  validate_schema (FS := example_fs) (Codec := example_codec)
    (Some (SchemaFile (PStr events_json))) example_world =
  (Return (Some (StructOf [])),
   mkWorld (heap example_world) [FsExists events_json; FsReadText events_json]) /\
  exists st, Some (StructOf []) = Some st.
Proof.
  split; [reflexivity|].
  apply (validate_schema_given_is_some (FS := example_fs) (Codec := example_codec)
           (SchemaFile (PStr events_json)) example_world
           (mkWorld (heap example_world)
              [FsExists events_json; FsReadText events_json])
           (Some (StructOf []))).
  reflexivity.
Defined.

(** ** The options merger and the execution: repetition, failure, frame *)

Section MergeFacts.

Context {StructType : Type}.

Implicit Type self : @AutoLoader StructType.

Lemma mandatory_twice (f s : string) (m : Dict) :
  <["cloudFiles.format" := f]> (<["cloudFiles.schemaLocation" := s]>
    (<["cloudFiles.format" := f]> (<["cloudFiles.schemaLocation" := s]> m))) =
  <["cloudFiles.format" := f]> (<["cloudFiles.schemaLocation" := s]> m).
Proof.
  apply map_eq. intros k.
  rewrite !lookup_insert. repeat case_decide; reflexivity.
Qed.

Lemma merged_merged self (m : Dict) : merged self (merged self m) = merged self m.
Proof. apply mandatory_twice. Qed.

Lemma execute_run self (r : nat) (m : Dict) (w : World) :
  options self = Some r ->
  heap w !! r = Some m ->
  m !! "self" = None ->
  execute self w =
  (Return (mkAutoLoader (format self) (location self) (schema_location self)
             (options self) (schema self)
             (Some (mkDataFrame
                      (CallFormat "cloudFiles" ::
                       match schema self with
                       | Some st => [CallSchema st]
                       | None => []
                       end ++
                       [CallOptions (merged self m); CallLoad (location self)])))),
   mkWorld (<[r := merged self m]> (heap w)) (fs_log w)).
Proof.
  intros Hopt Hm Hself. unfold execute, bind.
  rewrite (reader_run self r m w Hopt Hm Hself). unfold ret, reader_load. cbn.
  do 4 f_equal. destruct (schema self); reflexivity.
Qed.

(** X11: merging is idempotent: a second merge on the same instance returns
    the same reference and leaves the world exactly as the first did. *)
Theorem get_options_idempotent self (r : nat) (m : Dict) (w : World) :
  options self = Some r ->
  heap w !! r = Some m ->
  bind (get_options self) (fun _ => get_options self) w = get_options self w.
Proof.
  intros Hopt Hm. unfold bind.
  rewrite (get_options_run self r m w Hopt Hm).
  rewrite (get_options_run self r (merged self m) _ Hopt (lookup_insert_eq _ _ _)).
  cbn. rewrite merged_merged, insert_insert_eq. reflexivity.
Qed.

(** X12: the merge adds the two mandatory keys and removes none: the keys
    of the merged mapping are those it had before, and the two. *)
Theorem get_options_keys self (r : nat) (m : Dict) (w : World) :
  options self = Some r ->
  heap w !! r = Some m ->
  exists (w' : World) (m' : Dict),
    get_options self w = (Return r, w') /\
    heap w' !! r = Some m' /\
    dom m' = {[ "cloudFiles.format"; "cloudFiles.schemaLocation" ]} ∪ dom m.
Proof.
  intros Hopt Hm. eexists _, (merged self m).
  split; [apply get_options_run; eassumption|]. cbn.
  split; [apply lookup_insert_eq|]. unfold merged.
  rewrite !dom_insert_L. apply (assoc_L (∪)).
Qed.

(** X13: with [options] set to [None], which the field's type admits, the
    request cannot be built: [reader] and [execute] fail with the
    [AttributeError] of calling [update] on [None], whether or not a schema
    is set; no output is stored and the world is unchanged. *)
Theorem execute_without_options self (w : World) :
  options self = None ->
  reader self w =
    (Raise (AttributeError "'NoneType' object has no attribute 'update'"), w) /\
  execute self w =
    (Raise (AttributeError "'NoneType' object has no attribute 'update'"), w).
Proof.
  intros Hopt. unfold execute, reader, bind.
  rewrite (get_options_None self w Hopt). split; reflexivity.
Qed.

(** X14: the only effect of [execute] on the world is the merge of
    [get_options]: in every case the world after [execute] is the world
    after [get_options]; the filesystem is not accessed, no dict object is
    created or deleted, and no dict object other than the instance's own
    is changed. *)
Theorem execute_frame self (w : World) :
  (execute self w).2 = (get_options self w).2 /\
  fs_log (execute self w).2 = fs_log w /\
  dom (heap (execute self w).2) = dom (heap w) /\
  forall r', options self <> Some r' ->
             heap (execute self w).2 !! r' = heap w !! r'.
Proof.
  unfold execute, reader, bind, get_options, dict_update, deref, ret, raise,
    lift, reader_options_unpack.
  destruct (options self) as [r|]; cbn.
  - destruct (_ !! "self"); cbn;
      (split; [reflexivity|]; split; [reflexivity|];
       split; [apply dom_alter_L|];
       intros r' Hne; apply lookup_alter_ne; congruence).
  - split; [reflexivity|]. split; [reflexivity|]. split; reflexivity.
Qed.

(** X15: executing again changes nothing: when the options have no key
    named [self], the instance returned by a first [execute] can be
    executed in the world the first left, and the second execution returns
    the same instance, with the same request, and leaves the same world. *)
Theorem execute_twice self (r : nat) (m : Dict) (w : World) :
  options self = Some r ->
  heap w !! r = Some m ->
  m !! "self" = None ->
  exists (self1 : AutoLoader) (w1 : World),
    execute self w = (Return self1, w1) /\
    execute self1 w1 = (Return self1, w1).
Proof.
  intros Hopt Hm Hself. do 2 eexists.
  split; [apply (execute_run self r m w Hopt Hm Hself)|].
  erewrite execute_run;
    [|exact Hopt|apply lookup_insert_eq|by rewrite merged_lookup_self].
  unfold merged. cbn [format location schema_location options schema heap fs_log].
  rewrite !mandatory_twice, insert_insert_eq. reflexivity.
Qed.

(** X16: when the options have no key named [self], the options the engine
    receives are the mapping the instance's dict holds after the call: they
    carry the instance's format and schema location under the two mandatory
    keys, and every other key as the instance held it, present or absent. *)
Theorem execute_passes_merged_options self (r : nat) (m : Dict) (w : World) :
  options self = Some r ->
  heap w !! r = Some m ->
  m !! "self" = None ->
  exists (self' : AutoLoader) (w' : World) (df : DataFrame) (kwargs : Dict),
    execute self w = (Return self', w') /\
    output_df self' = Some df /\
    In (CallOptions kwargs) (plan df) /\
    (forall k', In (CallOptions k') (plan df) -> k' = kwargs) /\
    heap w' !! r = Some kwargs /\
    kwargs !! "cloudFiles.format" = Some (format self) /\
    kwargs !! "cloudFiles.schemaLocation" = Some (schema_location self) /\
    forall k, k <> "cloudFiles.format" -> k <> "cloudFiles.schemaLocation" ->
              kwargs !! k = m !! k.
Proof.
  intros Hopt Hm Hself. eexists _, _, _, (merged self m).
  split; [apply (execute_run self r m w Hopt Hm Hself)|]. cbn.
  split; [reflexivity|]. cbn.
  split; [destruct (schema self); cbn; tauto|].
  split.
  { intros k' Hin. destruct (schema self); cbn in Hin;
      repeat (destruct Hin as [Hin|Hin]; try discriminate Hin; try tauto);
      congruence. }
  split; [apply lookup_insert_eq|]. unfold merged.
  split; [apply lookup_insert_eq|].
  split; [rewrite lookup_insert_ne by discriminate; apply lookup_insert_eq|].
  intros k Hk1 Hk2. by rewrite !lookup_insert_ne.
Qed.

(** X17: an entry under the key [self] among the options makes [execute]
    fail: the options are unpacked into keyword arguments, so the call
    raises a [TypeError]; this happens after the merge, which stays in the
    instance's dict, and no output is stored. *)
Theorem execute_self_key self (r : nat) (m : Dict) (w : World) (v : string) :
  options self = Some r ->
  heap w !! r = Some m ->
  m !! "self" = Some v ->
  execute self w =
  (Raise (TypeError
            "DataStreamReader.options() got multiple values for argument 'self'"),
   mkWorld (<[r := merged self m]> (heap w)) (fs_log w)).
Proof.
  intros Hopt Hm Hself. unfold execute, bind.
  rewrite (reader_run_self self r m w v Hopt Hm Hself). reflexivity.
Qed.

End MergeFacts.

Lemma get_options_idempotent_witness :
  options example_loader = Some 0%nat /\
  heap example_world !! 0%nat =
    Some {[ "multiLine" := "true"; "cloudFiles.format" := "xml" ]} /\
  bind (get_options example_loader) (fun _ => get_options example_loader)
    example_world = get_options example_loader example_world.
Proof.
  split; [reflexivity|]. split; [reflexivity|].
  apply (get_options_idempotent example_loader 0%nat
           {[ "multiLine" := "true"; "cloudFiles.format" := "xml" ]} example_world);
    reflexivity.
Defined.

Lemma get_options_keys_witness :
  options example_loader = Some 0%nat /\
  heap example_world !! 0%nat =
    Some {[ "multiLine" := "true"; "cloudFiles.format" := "xml" ]} /\
  exists (w' : World) (m' : Dict),
    get_options example_loader example_world = (Return 0%nat, w') /\
    heap w' !! 0%nat = Some m' /\
    dom m' = {[ "cloudFiles.format"; "cloudFiles.schemaLocation" ]} ∪
             dom ({[ "multiLine" := "true"; "cloudFiles.format" := "xml" ]} : Dict).
Proof.
  split; [reflexivity|]. split; [reflexivity|].
  apply (get_options_keys example_loader 0%nat
           {[ "multiLine" := "true"; "cloudFiles.format" := "xml" ]} example_world);
    reflexivity.
Defined.

Lemma execute_without_options_witness :
  options example_loader_no_options = None /\
  reader example_loader_no_options example_world =
    (Raise (AttributeError "'NoneType' object has no attribute 'update'"),
     example_world) /\
  execute example_loader_no_options example_world =
    (Raise (AttributeError "'NoneType' object has no attribute 'update'"),
     example_world).
Proof.
  split; [reflexivity|].
  apply (execute_without_options example_loader_no_options example_world).
  reflexivity.
Defined.

Lemma execute_twice_witness :
  options example_loader_with_schema = Some 0%nat /\
  heap example_world !! 0%nat =
    Some {[ "multiLine" := "true"; "cloudFiles.format" := "xml" ]} /\
  ({[ "multiLine" := "true"; "cloudFiles.format" := "xml" ]} : Dict) !! "self"
    = None /\
  exists (self1 : AutoLoader) (w1 : World),
    execute example_loader_with_schema example_world = (Return self1, w1) /\
    execute self1 w1 = (Return self1, w1).
Proof.
  split; [reflexivity|]. split; [reflexivity|]. split; [reflexivity|].
  apply (execute_twice example_loader_with_schema 0%nat
           {[ "multiLine" := "true"; "cloudFiles.format" := "xml" ]} example_world);
    reflexivity.
Defined.

Lemma execute_passes_merged_options_witness :
  options example_loader = Some 0%nat /\
  heap example_world !! 0%nat =
    Some {[ "multiLine" := "true"; "cloudFiles.format" := "xml" ]} /\
  ({[ "multiLine" := "true"; "cloudFiles.format" := "xml" ]} : Dict) !! "self"
    = None /\
  exists (self' : AutoLoader) (w' : World) (df : DataFrame) (kwargs : Dict),
    execute example_loader example_world = (Return self', w') /\
    output_df self' = Some df /\
    In (CallOptions kwargs) (plan df) /\
    (forall k', In (CallOptions k') (plan df) -> k' = kwargs) /\
    heap w' !! 0%nat = Some kwargs /\
    kwargs !! "cloudFiles.format" = Some "csv" /\
    kwargs !! "cloudFiles.schemaLocation" = Some "s3://bucket/schema" /\
    forall k, k <> "cloudFiles.format" -> k <> "cloudFiles.schemaLocation" ->
              kwargs !! k =
              ({[ "multiLine" := "true"; "cloudFiles.format" := "xml" ]} : Dict) !! k.
Proof.
  split; [reflexivity|]. split; [reflexivity|]. split; [reflexivity|].
  apply (execute_passes_merged_options example_loader 0%nat
           {[ "multiLine" := "true"; "cloudFiles.format" := "xml" ]} example_world);
    reflexivity.
Defined.

Lemma execute_self_key_witness :
  options example_loader = Some 0%nat /\
  heap example_world_self !! 0%nat = Some {[ "self" := "x" ]} /\
  ({[ "self" := "x" ]} : Dict) !! "self" = Some "x" /\
  execute example_loader example_world_self =
  (Raise (TypeError
            "DataStreamReader.options() got multiple values for argument 'self'"),
   mkWorld (<[0%nat := merged example_loader {[ "self" := "x" ]}]>
              (heap example_world_self))
           (fs_log example_world_self)).
Proof.
  split; [reflexivity|]. split; [reflexivity|]. split; [reflexivity|].
  apply (execute_self_key example_loader 0%nat {[ "self" := "x" ]}
           example_world_self "x"); reflexivity.
Defined.
